(** * amp-fx-collection presets: a shallow embedding and its properties

    Source: [extensions/amp-fx-collection/0.1/providers/amp-fx-presets.js].

    The file exports one object, [Presets], that maps an effect name
    ([parallax], [fly-in-bottom], [fade-in], [fade-in-scroll]) to a record of
    three functions: [isFxTypeSupported], [userAsserts] and [update].  The
    functions are embedded below in the order of the source, over

    - a model of JavaScript Numbers (sign, magnitude, NaN, infinities and
      signed zeros) in which finite values are exact rationals: the special
      values behave as in IEEE 754, rounding and overflow are not modelled;
      what is proved of the values of the arithmetic is therefore stated on
      the binary64 evaluation of [Binary64], under the condition that no
      operation rounds, or is a property of signs and order that rounding
      keeps;
    - a model of [parseFloat] on strings of 8-bit code units;
    - an error monad for the two kinds of assertion ([user().assert] and
      [dev().assert]);
    - explicit passing of the state an update touches: the [FxElement] the
      function is bound to and the queue of mutations handed to the
      resources service. *)

From Stdlib Require Import ZArith QArith Lqa Lia Bool Ascii String SpecFloat.
From stdpp Require Import base option list strings gmap.

(** ** JavaScript Numbers *)

Module JsNumber.

Local Open Scope positive_scope.

(** Absolute value of a Number that is not NaN: zero, a positive rational
    [n/d], or infinity. *)
Inductive magnitude : Type :=
  | MZero
  | MPos (n d : positive)
  | MInf.

(** A Number is NaN or a sign ([true] is negative) with a magnitude, so
    that [+0] and [-0], [+Infinity] and [-Infinity] are distinct values.
    The operations below return the exact result; the binary64 operation
    returns that result rounded, which is the same Number whenever the
    exact result is a binary64 Number. *)
Inductive number : Type :=
  | NaN
  | Num (neg : bool) (m : magnitude).

Definition mag_compare (a b : magnitude) : comparison :=
  match a, b with
  | MZero, MZero => Eq
  | MZero, _ => Lt
  | MPos _ _, MZero => Gt
  | MPos n d, MPos n' d' => Pos.compare (n * d') (n' * d)
  | MPos _ _, MInf => Lt
  | MInf, MInf => Eq
  | MInf, _ => Gt
  end.

Definition mag_add (a b : magnitude) : magnitude :=
  match a, b with
  | MInf, _ | _, MInf => MInf
  | MZero, m | m, MZero => m
  | MPos n d, MPos n' d' => MPos (n * d' + n' * d) (d * d')
  end.

(** [mag_sub a b] is [a - b] for [b < a]. *)
Definition mag_sub (a b : magnitude) : magnitude :=
  match a, b with
  | MInf, _ => MInf
  | m, MZero => m
  | MPos n d, MPos n' d' => MPos (n * d' - n' * d) (d * d')
  | _, _ => MZero
  end.

(** [None] is the invalid operation [0 * Infinity]. *)
Definition mag_mul (a b : magnitude) : option magnitude :=
  match a, b with
  | MZero, MInf | MInf, MZero => None
  | MZero, _ | _, MZero => Some MZero
  | MInf, _ | _, MInf => Some MInf
  | MPos n d, MPos n' d' => Some (MPos (n * n') (d * d'))
  end.

(** [None] is one of the invalid operations [0 / 0] and
    [Infinity / Infinity]. *)
Definition mag_div (a b : magnitude) : option magnitude :=
  match a, b with
  | MZero, MZero | MInf, MInf => None
  | MZero, _ | _, MInf => Some MZero
  | MInf, _ | _, MZero => Some MInf
  | MPos n d, MPos n' d' => Some (MPos (n * d') (d * n'))
  end.

(** Unary [-]. *)
Definition neg (x : number) : number :=
  match x with
  | NaN => NaN
  | Num s m => Num (negb s) m
  end.

(** Binary [+].  Opposite infinities give NaN; a sum that cancels is [+0]. *)
Definition add (x y : number) : number :=
  match x, y with
  | NaN, _ | _, NaN => NaN
  | Num sx mx, Num sy my =>
      if Bool.eqb sx sy then Num sx (mag_add mx my)
      else match mx, my with
           | MInf, MInf => NaN
           | _, _ =>
               match mag_compare mx my with
               | Eq => Num false MZero
               | Gt => Num sx (mag_sub mx my)
               | Lt => Num sy (mag_sub my mx)
               end
           end
  end.

(** Binary [-]. *)
Definition sub (x y : number) : number := add x (neg y).

(** Binary [*]. *)
Definition mul (x y : number) : number :=
  match x, y with
  | NaN, _ | _, NaN => NaN
  | Num sx mx, Num sy my =>
      match mag_mul mx my with
      | Some m => Num (xorb sx sy) m
      | None => NaN
      end
  end.

(** Binary [/]. *)
Definition div (x y : number) : number :=
  match x, y with
  | NaN, _ | _, NaN => NaN
  | Num sx mx, Num sy my =>
      match mag_div mx my with
      | Some m => Num (xorb sx sy) m
      | None => NaN
      end
  end.

(** The order of two Numbers; [None] when one of them is NaN.  The two
    zeros are equal. *)
Definition compare (x y : number) : option comparison :=
  match x, y with
  | NaN, _ | _, NaN => None
  | Num _ MZero, Num _ MZero => Some Eq
  | Num false mx, Num false my => Some (mag_compare mx my)
  | Num true mx, Num true my => Some (mag_compare my mx)
  | Num false _, Num true _ => Some Gt
  | Num true _, Num false _ => Some Lt
  end.

(** [x > y], [x >= y], [x < y] and [x === y]: all false on NaN. *)
Definition gt (x y : number) : bool :=
  match compare x y with Some Gt => true | _ => false end.

Definition ge (x y : number) : bool :=
  match compare x y with Some Gt | Some Eq => true | _ => false end.

Definition lt (x y : number) : bool :=
  match compare x y with Some Lt => true | _ => false end.

Definition le (x y : number) : bool :=
  match compare x y with Some Lt | Some Eq => true | _ => false end.

Definition eqb (x y : number) : bool :=
  match compare x y with Some Eq => true | _ => false end.

(** ToBoolean on a Number: [0], [-0] and NaN are falsy. *)
Definition truthy (x : number) : bool :=
  match x with
  | NaN | Num _ MZero => false
  | _ => true
  end.

Definition finite (x : number) : bool :=
  match x with
  | Num _ MZero | Num _ (MPos _ _) => true
  | _ => false
  end.

(** The Number of an integer literal. *)
Definition of_Z (z : Z) : number :=
  match z with
  | Z0 => Num false MZero
  | Zpos p => Num false (MPos p 1)
  | Zneg p => Num true (MPos p 1)
  end.

(** [m * 10^e] with the sign given apart, as a decimal literal denotes it. *)
Definition of_decimal (negative : bool) (m : N) (e : Z) : number :=
  match m with
  | N0 => Num negative MZero
  | Npos p =>
      match e with
      | Z0 => Num negative (MPos p 1)
      | Zpos k => Num negative (MPos (p * 10 ^ k) 1)
      | Zneg k => Num negative (MPos p (10 ^ k))
      end
  end.

(** The rational a finite Number stands for (0 for the others). *)
Definition to_Q (x : number) : Q :=
  match x with
  | Num false (MPos n d) => Zpos n # d
  | Num true (MPos n d) => Zneg n # d
  | _ => 0%Q
  end.

End JsNumber.

Import JsNumber.

Declare Scope js_scope.
Delimit Scope js_scope with js.
Bind Scope js_scope with number.
Infix "+" := add : js_scope.
Infix "-" := sub : js_scope.
Infix "*" := mul : js_scope.
Infix "/" := div : js_scope.
Notation "- x" := (neg x) : js_scope.
Infix ">" := gt : js_scope.
Infix ">=" := ge : js_scope.
Infix "<" := lt : js_scope.
Infix "<=" := le : js_scope.
Infix "===" := eqb (at level 70, no associativity) : js_scope.
Notation "0" := (of_Z 0) : js_scope.
Notation "1" := (of_Z 1) : js_scope.

(** ** [parseFloat]

    ECMAScript 15.1.2.3: skip leading white space, take the longest prefix
    that is a [StrDecimalLiteral], return its value, or NaN when there is no
    such prefix.  A string is a sequence of 8-bit code units here, so of the
    white-space characters only those below 256 occur.  The value returned
    is the exact value of the decimal literal, where the code has the
    nearest binary64 Number. *)

Module JsParse.

Definition is_digit (c : ascii) : bool :=
  let n := N_of_ascii c in (48 <=? n)%N && (n <=? 57)%N.

Definition digit_value (c : ascii) : N := (N_of_ascii c - 48)%N.

(** TAB, LF, VT, FF, CR, SP and NBSP. *)
Definition is_StrWhiteSpaceChar (c : ascii) : bool :=
  let n := N_of_ascii c in
  ((9 <=? n)%N && (n <=? 13)%N) || (n =? 32)%N || (n =? 160)%N.

Fixpoint trim_left (s : string) : string :=
  match s with
  | String c s' => if is_StrWhiteSpaceChar c then trim_left s' else s
  | EmptyString => EmptyString
  end.

(** The longest prefix of decimal digits, and what follows it. *)
Fixpoint read_digits (s : string) : string * string :=
  match s with
  | String c s' =>
      if is_digit c
      then let '(ds, r) := read_digits s' in (String c ds, r)
      else (EmptyString, s)
  | EmptyString => (EmptyString, EmptyString)
  end.

Fixpoint digits_value (acc : N) (ds : string) : N :=
  match ds with
  | String c ds' => digits_value (acc * 10 + digit_value c)%N ds'
  | EmptyString => acc
  end.

(** [ExponentPart_opt]: the exponent, 0 when no well-formed exponent part
    starts the string. *)
Definition read_exponent (s : string) : Z :=
  match s with
  | String c r =>
      if (c =? "e")%char || (c =? "E")%char then
        let '(negative, r1) :=
          match r with
          | String "+" r' => (false, r')
          | String "-" r' => (true, r')
          | _ => (false, r)
          end in
        match read_digits r1 with
        | (EmptyString, _) => 0%Z
        | (es, _) =>
            let v := Z.of_N (digits_value 0 es) in
            if negative then (- v)%Z else v
        end
      else 0%Z
  | EmptyString => 0%Z
  end.

(** [StrUnsignedDecimalLiteral]: [Infinity], [digits . digits_opt exp_opt],
    [. digits exp_opt] or [digits exp_opt]. *)
Definition read_unsigned (negative : bool) (s : string) : number :=
  if String.prefix "Infinity" s then Num negative MInf else
  let '(ip, r) := read_digits s in
  match r with
  | String "." r' =>
      let '(fp, r'') := read_digits r' in
      match ip, fp with
      | EmptyString, EmptyString => NaN
      | _, _ =>
          of_decimal negative (digits_value 0 (ip +:+ fp))
            (read_exponent r'' - Z.of_nat (String.length fp))
      end
  | _ =>
      match ip with
      | EmptyString => NaN
      | _ => of_decimal negative (digits_value 0 ip) (read_exponent r)
      end
  end.

Definition parseFloat_string (s : string) : number :=
  match trim_left s with
  | String "+" r => read_unsigned false r
  | String "-" r => read_unsigned true r
  | r => read_unsigned false r
  end.

(** [parseFloat] first applies ToString to its argument.  The argument is
    what [getAttribute] returns: a string or [null] ([None]), and
    ToString(null) is the string [null]. *)
Definition parseFloat (v : option string) : number :=
  parseFloat_string (default "null" v).

End JsParse.

Import JsParse.

(** [parseFloat] of a Number goes through ToString as well: ToString(-0)
    is [0], and every other Number reads back as itself. *)
Definition parseFloat_number (x : number) : number :=
  match x with
  | Num true MZero => Num false MZero
  | _ => x
  end.

(** ** Assertions and errors *)

(** Which logger an assertion belongs to: [user()] or [dev()]. *)
Inductive logger : Type := User | Dev.

(** The error an assertion throws: its logger and its message template
    ([None] when the call gives no message). *)
Record error : Type := Error { error_logger : logger; error_message : option string }.

Inductive result (A : Type) : Type :=
  | Ok (a : A)
  | Throw (e : error).
Arguments Ok {A} a.
Arguments Throw {A} e.

#[global] Instance result_ret : MRet result := λ A a, Ok a.
#[global] Instance result_bind : MBind result := λ A B f m,
  match m with
  | Ok a => f a
  | Throw e => Throw e
  end.

Definition throws {A} (r : result A) : bool :=
  match r with Ok _ => false | Throw _ => true end.

(** ToBoolean, for the kinds of value the assertions are given. *)
Class ToBoolean (A : Type) : Type := to_boolean : A → bool.
#[global] Instance bool_to_boolean : ToBoolean bool := λ b, b.
#[global] Instance number_to_boolean : ToBoolean number := truthy.
(** A string is truthy unless empty; [null] is falsy. *)
#[global] Instance attribute_to_boolean : ToBoolean (option string) := λ v,
  match v with
  | Some (String _ _) => true
  | _ => false
  end.

(** Modelled from the spec: [src/log.js] is not among the sources.  An
    assertion fails with an error of its logger when its first argument is
    not truthy, and returns that argument otherwise. *)
Definition assert (l : logger) {A} `{ToBoolean A} (shouldBeTrueish : A)
    (message : option string) : result A :=
  if to_boolean shouldBeTrueish then Ok shouldBeTrueish
  else Throw (Error l message).

(** ** The host: window, element, FxElement, resources *)

(** Modelled from the spec: [src/experiments.js] is not among the sources.
    The window carries the set of experiments that are turned on, and
    [isExperimentOn] is the feature-flag query. *)
Record Window : Type := { experiments : gset string }.

Definition isExperimentOn (win : Window) (experimentId : string) : bool :=
  bool_decide (experimentId ∈ experiments win).

(** The value a style property is set to.  [CssTranslateYFixed0 x] is the
    template string [translateY(${x.toFixed(0)}px)]. *)
Inductive css_value : Type :=
  | CssString (s : string)
  | CssNumber (x : number)
  | CssTranslateYFixed0 (x : number).

(** A DOM element: its attributes and its inline style. *)
Record Element : Type := {
  attributes : gmap string string;
  style : gmap string css_value;
}.

Definition getAttribute (element : Element) (name : string) : option string :=
  attributes element !! name.

Definition hasAttribute (element : Element) (name : string) : bool :=
  bool_decide (is_Some (attributes element !! name)).

(** The function handed to [mutateElement], named after the preset whose
    [update] creates it.  It closes over the FxElement and reads it when it
    runs. *)
Inductive Mutator : Type :=
  | ParallaxMutator
  | FlyInBottomMutator
  | FadeInMutator
  | FadeInScrollMutator.

(** Modelled from the spec: the resources service is not among the sources.
    [mutateElement] queues the callback; the service runs it later. *)
Record Resources : Type := { scheduled : list Mutator }.

(** Modelled from the spec: the FxElement class is not among the sources.
    It holds the element, the cached viewport height ([null] before it is
    measured, which is 0 under ToNumber and falsy like 0, and is represented
    by 0), the parsed attributes, the offset, the pending-mutation flag and
    a reference to the resources service. *)
Record FxElement : Type := {
  getElement : Element;
  adjustedViewportHeight_ : number;
  getFactor : number;
  getMargin : number;
  getMarginStart : number;
  getMarginEnd : number;
  hasRepeat : bool;
  getDuration : string;
  getEasing : string;
  getOffset : number;
  isMutateScheduled : bool;
  resources_ : Resources;
}.

Definition getResources (fxElement : FxElement) : Resources := resources_ fxElement.

Definition setOffset (offset : number) (fx : FxElement) : FxElement :=
  {| getElement := getElement fx;
     adjustedViewportHeight_ := adjustedViewportHeight_ fx;
     getFactor := getFactor fx; getMargin := getMargin fx;
     getMarginStart := getMarginStart fx; getMarginEnd := getMarginEnd fx;
     hasRepeat := hasRepeat fx; getDuration := getDuration fx;
     getEasing := getEasing fx;
     getOffset := offset;
     isMutateScheduled := isMutateScheduled fx;
     resources_ := resources_ fx |}.

Definition setIsMutateScheduled (mutateScheduled : bool) (fx : FxElement) : FxElement :=
  {| getElement := getElement fx;
     adjustedViewportHeight_ := adjustedViewportHeight_ fx;
     getFactor := getFactor fx; getMargin := getMargin fx;
     getMarginStart := getMarginStart fx; getMarginEnd := getMarginEnd fx;
     hasRepeat := hasRepeat fx; getDuration := getDuration fx;
     getEasing := getEasing fx;
     getOffset := getOffset fx;
     isMutateScheduled := mutateScheduled;
     resources_ := resources_ fx |}.

(** [fxElement.getResources().mutateElement(fxElement.getElement(), mutator)] *)
Definition mutateElement (mutator : Mutator) (fx : FxElement) : FxElement :=
  {| getElement := getElement fx;
     adjustedViewportHeight_ := adjustedViewportHeight_ fx;
     getFactor := getFactor fx; getMargin := getMargin fx;
     getMarginStart := getMarginStart fx; getMarginEnd := getMarginEnd fx;
     hasRepeat := hasRepeat fx; getDuration := getDuration fx;
     getEasing := getEasing fx;
     getOffset := getOffset fx;
     isMutateScheduled := isMutateScheduled fx;
     resources_ := {| scheduled := scheduled (resources_ fx) ++ [mutator] |} |}.

(** Modelled from the spec: [src/style.js] is not among the sources.
    [setStyles(fxElement.getElement(), styles)] sets each listed property of
    the element's style. *)
Definition setStyles (styles : list (string * css_value)) (fx : FxElement) : FxElement :=
  {| getElement :=
       {| attributes := attributes (getElement fx);
          style := foldl (λ st kv, <[kv.1 := kv.2]> st) (style (getElement fx)) styles |};
     adjustedViewportHeight_ := adjustedViewportHeight_ fx;
     getFactor := getFactor fx; getMargin := getMargin fx;
     getMarginStart := getMarginStart fx; getMarginEnd := getMarginEnd fx;
     hasRepeat := hasRepeat fx; getDuration := getDuration fx;
     getEasing := getEasing fx;
     getOffset := getOffset fx;
     isMutateScheduled := isMutateScheduled fx;
     resources_ := resources_ fx |}.

(** The input of [update]: [positionRect] is [null] ([None]) when the
    element does not intersect the viewport. *)
Record PositionRect : Type := { top : number }.
Record ScrollEntry : Type := { positionRect : option PositionRect }.

(** What a function call evaluates to when it does not throw. *)
Inductive value : Type :=
  | VUndefined
  | VBool (b : bool).

(** ** The presets *)

(** A preset: the three functions the host calls.  [update] is called with
    [this] bound to the FxElement; it returns the FxElement as the call
    leaves it, or the error thrown. *)
Record Preset : Type := {
  isFxTypeSupported : Window → result value;
  userAsserts : Element → result unit;
  update : ScrollEntry → FxElement → result FxElement;
}.

(** What a queued callback does when the resources service runs it. *)
Definition run_mutator (mutator : Mutator) (fxElement : FxElement) : FxElement :=
  let fxElement := setIsMutateScheduled false fxElement in
  match mutator with
  | ParallaxMutator =>
      setStyles [("transform", CssTranslateYFixed0 (getOffset fxElement))] fxElement
  | FlyInBottomMutator =>
      setStyles [("transition-duration", CssString (getDuration fxElement));
                 ("transition-timing-function", CssString (getEasing fxElement));
                 ("transform", CssString "translateY(-150px)")] fxElement
  | FadeInMutator =>
      setStyles [("transition-duration", CssString (getDuration fxElement));
                 ("transition-timing-function", CssString (getEasing fxElement));
                 ("opacity", CssNumber 1)] fxElement
  | FadeInScrollMutator =>
      setStyles [("opacity", CssNumber (getOffset fxElement))] fxElement
  end.

Module parallax.

Definition isFxTypeSupported (unusedWin : Window) : result value :=
  mret (VBool true).

Definition userAsserts (element : Element) : result unit :=
  factorValue ← assert User (getAttribute element "data-parallax-factor")
    (Some "data-parallax-factor=<number> attribute must be provided for: %s");
  _ ← assert User (parseFloat factorValue > 0)%js
    (Some "data-parallax-factor must be a number and greater than 0 for: %s");
  mret ().

Definition update (entry : ScrollEntry) (this : FxElement) : result FxElement :=
  let fxElement := this in
  _ ← assert Dev (adjustedViewportHeight_ fxElement) None;
  (* outside viewport *)
  match positionRect entry with
  | None => mret fxElement
  | Some positionRect =>
      if (top positionRect > adjustedViewportHeight_ fxElement)%js
      then mret fxElement
      else
        let adjustedFactor := (- (parseFloat_number (getFactor fxElement) - 1))%js in
        let top := top positionRect in
        let offset := ((adjustedViewportHeight_ fxElement - top) * adjustedFactor)%js in
        let fxElement := setOffset offset fxElement in
        if isMutateScheduled fxElement then mret fxElement
        else
          let fxElement := setIsMutateScheduled true fxElement in
          mret (mutateElement ParallaxMutator fxElement)
  end.

End parallax.

Module fly_in_bottom.

Definition isFxTypeSupported (win : Window) : result value :=
  mret (VBool true).

Definition userAsserts (element : Element) : result unit :=
  if negb (hasAttribute element "data-margin") then mret ()
  else
    let margin := getAttribute element "data-margin" in
    _ ← assert User ((parseFloat margin >= 0)%js && (parseFloat margin < 1)%js)
      (Some "data-margin must be a number and be between 0 and 1 for: %s");
    mret ().

Definition update (entry : ScrollEntry) (this : FxElement) : result FxElement :=
  let fxElement := this in
  _ ← assert Dev (adjustedViewportHeight_ fxElement) None;
  (* Outside viewport *)
  match positionRect entry with
  | None => mret fxElement
  | Some positionRect =>
      if (top positionRect >
            (1 - getMargin fxElement) * adjustedViewportHeight_ fxElement)%js
      then mret fxElement
      else if isMutateScheduled fxElement then mret fxElement
      else
        let fxElement := setIsMutateScheduled true fxElement in
        mret (mutateElement FlyInBottomMutator fxElement)
  end.

End fly_in_bottom.

Module fade_in.

Definition isFxTypeSupported (win : Window) : result value :=
  _ ← assert User (isExperimentOn win "amp-fx-fade-in")
    (Some "amp-fx-fade-in experiment is not turned on.");
  mret VUndefined.

Definition userAsserts (element : Element) : result unit :=
  if negb (hasAttribute element "data-margin-start") then mret ()
  else
    let marginStart := getAttribute element "data-margin-start" in
    _ ← assert User
      ((parseFloat marginStart >= 0)%js && (parseFloat marginStart < 1)%js)
      (Some "data-margin-start must be a number and be between 0 and 1 for: %s");
    mret ().

Definition update (entry : ScrollEntry) (this : FxElement) : result FxElement :=
  let fxElement := this in
  _ ← assert Dev (adjustedViewportHeight_ fxElement) None;
  (* Outside viewport *)
  match positionRect entry with
  | None => mret fxElement
  | Some positionRect =>
      if (top positionRect >
            (1 - getMarginStart fxElement) * adjustedViewportHeight_ fxElement)%js
      then mret fxElement
      else if isMutateScheduled fxElement then mret fxElement
      else
        let fxElement := setIsMutateScheduled true fxElement in
        mret (mutateElement FadeInMutator fxElement)
  end.

End fade_in.

Module fade_in_scroll.

Definition isFxTypeSupported (win : Window) : result value :=
  _ ← assert User (isExperimentOn win "amp-fx-fade-in-scroll")
    (Some "amp-fx-fade-in-scroll experiment is not turned on.");
  mret VUndefined.

Definition userAsserts (element : Element) : result unit :=
  if negb (hasAttribute element "data-margin-start") &&
     negb (hasAttribute element "data-margin-end")
  then mret ()
  else
    let marginStart := getAttribute element "data-margin-start" in
    _ ← assert User
      ((parseFloat marginStart >= 0)%js && (parseFloat marginStart < 1)%js)
      (Some "data-margin-start must be a number and be between 0 and 1 for: %s");
    let marginEnd := getAttribute element "data-margin-end" in
    _ ← assert User
      ((parseFloat marginEnd >= 0)%js && (parseFloat marginEnd < 1)%js)
      (Some "data-margin-end must be a number and be between 0 and 1 for: %s");
    _ ← assert User (parseFloat marginEnd > parseFloat marginStart)%js
      (Some "data-margin-end must be greater than data-margin-start for: %s");
    mret ().

(** The value of [const offset] in [update]. *)
Definition offset_at (fxElement : FxElement) (top : number) : number :=
  let marginDelta := (getMarginEnd fxElement - getMarginStart fxElement)%js in
  (1 * (adjustedViewportHeight_ fxElement - top -
        (getMarginStart fxElement * adjustedViewportHeight_ fxElement)) /
     (marginDelta * adjustedViewportHeight_ fxElement))%js.

Definition update (entry : ScrollEntry) (this : FxElement) : result FxElement :=
  let fxElement := this in
  _ ← assert Dev (adjustedViewportHeight_ fxElement) None;
  (* Outside viewport or margins *)
  match positionRect entry with
  | None => mret fxElement
  | Some positionRect =>
      if (top positionRect >
            (1 - getMarginStart fxElement) * adjustedViewportHeight_ fxElement)%js
      then mret fxElement
      else if isMutateScheduled fxElement then mret fxElement
      (* Early exit if the animation doesn't need to repeat and it is fully
         opaque. *)
      else if negb (hasRepeat fxElement) && (getOffset fxElement >= 1)%js
      then mret fxElement
      else
        let top := top positionRect in
        let offset := offset_at fxElement top in
        let fxElement := setOffset offset fxElement in
        if isMutateScheduled fxElement then mret fxElement
        else
          let fxElement := setIsMutateScheduled true fxElement in
          mret (mutateElement FadeInScrollMutator fxElement)
  end.

End fade_in_scroll.

Definition parallax : Preset :=
  {| isFxTypeSupported := parallax.isFxTypeSupported;
     userAsserts := parallax.userAsserts;
     update := parallax.update |}.

Definition fly_in_bottom : Preset :=
  {| isFxTypeSupported := fly_in_bottom.isFxTypeSupported;
     userAsserts := fly_in_bottom.userAsserts;
     update := fly_in_bottom.update |}.

Definition fade_in : Preset :=
  {| isFxTypeSupported := fade_in.isFxTypeSupported;
     userAsserts := fade_in.userAsserts;
     update := fade_in.update |}.

Definition fade_in_scroll : Preset :=
  {| isFxTypeSupported := fade_in_scroll.isFxTypeSupported;
     userAsserts := fade_in_scroll.userAsserts;
     update := fade_in_scroll.update |}.

(** [export const Presets = {...}] *)
Definition Presets : gmap string Preset :=
  list_to_map [("parallax", parallax); ("fly-in-bottom", fly_in_bottom);
               ("fade-in", fade_in); ("fade-in-scroll", fade_in_scroll)].

(** The mutator each preset's [update] hands to [mutateElement]. *)
Definition mutator_of (name : string) : option Mutator :=
  if decide (name = "parallax") then Some ParallaxMutator
  else if decide (name = "fly-in-bottom") then Some FlyInBottomMutator
  else if decide (name = "fade-in") then Some FadeInMutator
  else if decide (name = "fade-in-scroll") then Some FadeInScrollMutator
  else None.

(** The resources service running the first callback of its queue. *)
Definition run_scheduled (fx : FxElement) : FxElement :=
  match scheduled (resources_ fx) with
  | [] => fx
  | mutator :: rest =>
      run_mutator mutator
        {| getElement := getElement fx;
           adjustedViewportHeight_ := adjustedViewportHeight_ fx;
           getFactor := getFactor fx; getMargin := getMargin fx;
           getMarginStart := getMarginStart fx; getMarginEnd := getMarginEnd fx;
           hasRepeat := hasRepeat fx; getDuration := getDuration fx;
           getEasing := getEasing fx;
           getOffset := getOffset fx;
           isMutateScheduled := isMutateScheduled fx;
           resources_ := {| scheduled := rest |} |}
  end.

(** ** Sample inputs *)

Definition element_of (attrs : list (string * string)) : Element :=
  {| attributes := list_to_map attrs; style := ∅ |}.

(** An FxElement over a viewport of height 100, factor 2, margins 0 and
    1/2, nothing pending. *)
Definition sample_fx : FxElement :=
  {| getElement := element_of [];
     adjustedViewportHeight_ := of_Z 100;
     getFactor := of_Z 2;
     getMargin := 0%js;
     getMarginStart := 0%js;
     getMarginEnd := Num false (MPos 1 2);
     hasRepeat := false;
     getDuration := "1000ms";
     getEasing := "ease-in";
     getOffset := 0%js;
     isMutateScheduled := false;
     resources_ := {| scheduled := [] |} |}.

(** The same before the viewport height is measured. *)
Definition unmeasured_fx : FxElement :=
  {| getElement := element_of [];
     adjustedViewportHeight_ := 0%js;
     getFactor := of_Z 2;
     getMargin := 0%js;
     getMarginStart := 0%js;
     getMarginEnd := Num false (MPos 1 2);
     hasRepeat := false;
     getDuration := "1000ms";
     getEasing := "ease-in";
     getOffset := 0%js;
     isMutateScheduled := false;
     resources_ := {| scheduled := [] |} |}.

(** [sample_fx] after a parallax update at top 50: offset -50 and one
    mutation pending. *)
Definition pending_fx : FxElement :=
  mutateElement ParallaxMutator
    (setIsMutateScheduled true (setOffset (of_Z (-50)) sample_fx)).

Definition entry_at (z : Z) : ScrollEntry :=
  {| positionRect := Some {| top := of_Z z |} |}.

Definition entry_outside : ScrollEntry := {| positionRect := None |}.

(** A window with both experiments turned on. *)
Definition experiments_on : Window :=
  {| experiments := {["amp-fx-fade-in"; "amp-fx-fade-in-scroll"]} |}.

(** The condition the margin assertions test: the value is in [0,1).  It is
    false for NaN. *)
Definition in_unit_interval (x : number) : bool :=
  (x >= 0)%js && (x < 1)%js.

(** [denotes x q]: [x] is finite and stands for the rational [q]. *)
Definition denotes (x : number) (q : Q) : Prop :=
  finite x = true ∧ (to_Q x == q)%Q.

(** ** Sequences of calls

    What the host does with a preset over time: a scroll event calls
    [update] with an entry, and a frame lets the resources service run the
    first callback of its queue. *)
Inductive Event : Type :=
  | Scroll (entry : ScrollEntry)
  | Frame.

Definition step (p : Preset) (ev : Event) (fx : FxElement) : result FxElement :=
  match ev with
  | Scroll entry => update p entry fx
  | Frame => mret (run_scheduled fx)
  end.

Fixpoint run (p : Preset) (evs : list Event) (fx : FxElement) : result FxElement :=
  match evs with
  | [] => mret fx
  | ev :: evs' => fx' ← step p ev fx; run p evs' fx'
  end.

(** The flag and the queue agree: nothing is queued while the flag is
    clear, exactly one callback while it is set. *)
Definition at_most_one_pending (fx : FxElement) : bool :=
  match isMutateScheduled fx, scheduled (resources_ fx) with
  | false, [] => true
  | true, [_] => true
  | _, _ => false
  end.

(** Everything of an FxElement that [update] is not meant to write: the
    element with its attributes and style, the cached height and the parsed
    attributes. *)
Definition same_configuration (fx fx' : FxElement) : Prop :=
  getElement fx' = getElement fx ∧
  adjustedViewportHeight_ fx' = adjustedViewportHeight_ fx ∧
  getFactor fx' = getFactor fx ∧
  getMargin fx' = getMargin fx ∧
  getMarginStart fx' = getMarginStart fx ∧
  getMarginEnd fx' = getMarginEnd fx ∧
  hasRepeat fx' = hasRepeat fx ∧
  getDuration fx' = getDuration fx ∧
  getEasing fx' = getEasing fx.

(** [sample_fx] once its fade-in-scroll effect is fully applied. *)
Definition opaque_fx : FxElement := setOffset (of_Z 2) sample_fx.

(** [fx] with other margins. *)
Definition with_margins (marginStart marginEnd : number) (fx : FxElement) : FxElement :=
  {| getElement := getElement fx;
     adjustedViewportHeight_ := adjustedViewportHeight_ fx;
     getFactor := getFactor fx; getMargin := getMargin fx;
     getMarginStart := marginStart; getMarginEnd := marginEnd;
     hasRepeat := hasRepeat fx; getDuration := getDuration fx;
     getEasing := getEasing fx;
     getOffset := getOffset fx;
     isMutateScheduled := isMutateScheduled fx;
     resources_ := resources_ fx |}.

(** ** The offset formula in binary64

    The arithmetic of [JsNumber] is exact, the arithmetic of the code is
    binary64: the two agree as long as no operation rounds, overflows or
    underflows.  To say where that is, the formula of the fade-in-scroll
    offset and the trigger line are evaluated here with the binary64
    operations of the standard library's [SpecFloat] (precision 53, round
    to nearest, ties to even), and [embed] gives the exact value of a
    binary64 Number. *)

Module Binary64.

Definition prec : Z := 53.
Definition emax : Z := 1024.

Definition sub : spec_float → spec_float → spec_float := SFsub prec emax.
Definition mul : spec_float → spec_float → spec_float := SFmul prec emax.
Definition div : spec_float → spec_float → spec_float := SFdiv prec emax.

(** The binary64 Number of an integer literal. *)
Definition of_Z (z : Z) : spec_float := binary_normalize prec emax z 0 false.


(** The value of [const offset] in the fade-in-scroll [update]. *)
Definition offset_at (height marginStart marginEnd top : spec_float) : spec_float :=
  let marginDelta := sub marginEnd marginStart in
  div (mul (of_Z 1) (sub (sub height top) (mul marginStart height)))
      (mul marginDelta height).






End Binary64.

(** ** Properties *)

(** *** The registry *)

Lemma Presets_lookup (name : string) (p : Preset) :
  Presets !! name = Some p →
  (name = "parallax" ∧ p = parallax) ∨
  (name = "fly-in-bottom" ∧ p = fly_in_bottom) ∨
  (name = "fade-in" ∧ p = fade_in) ∨
  (name = "fade-in-scroll" ∧ p = fade_in_scroll).
Proof.
  unfold Presets; cbn [list_to_map foldr fst snd].
  rewrite !lookup_insert_Some, lookup_empty. intros H.
  repeat (destruct H as [[<- <-] | [_ H]]; [tauto |]). done.
Qed.

(** Splits a goal about a registered preset into the four presets. *)
Ltac each_preset H :=
  apply Presets_lookup in H;
  destruct H as [[-> ->] | [[-> ->] | [[-> ->] | [-> ->]]]].

(** Unfolds an [update] down to its tests. *)
Ltac unfold_update :=
  cbn [update parallax fly_in_bottom fade_in fade_in_scroll];
  unfold parallax.update, fly_in_bottom.update, fade_in.update,
    fade_in_scroll.update, assert, mbind, result_bind, mret, result_ret.

(** Case analysis on the next test of an unfolded [update]. *)
Ltac next_test :=
  match goal with
  | |- context [if ?b then _ else _] => destruct b eqn:?
  end.

Lemma setOffset_same (fx : FxElement) : setOffset (getOffset fx) fx = fx.
Proof. by destruct fx. Qed.

(** [parseFloat] of the factor does not change what [factor - 1] is. *)
Lemma parseFloat_number_sub_1 (x : number) :
  (parseFloat_number x - 1 = x - 1)%js.
Proof. by destruct x as [|[] []]. Qed.

(** *** [parseFloat] on sample attribute values *)

Example parseFloat_decimal : parseFloat (Some "0.5") = Num false (MPos 5 10).
Proof. reflexivity. Qed.

Example parseFloat_prefix : parseFloat (Some " -1.25e1px") = Num true (MPos 125 10).
Proof. reflexivity. Qed.

Example parseFloat_not_a_number :
  parseFloat (Some "") = NaN ∧ parseFloat (Some "margin") = NaN ∧
  parseFloat (Some ".") = NaN ∧ parseFloat None = NaN.
Proof. repeat split; reflexivity. Qed.

(** *** The pending-mutation flag *)

(** Running the queued callback clears the flag and takes the callback off
    the queue. *)
Lemma run_scheduled_clears_flag (fx : FxElement) (m : Mutator) (rest : list Mutator) :
  scheduled (resources_ fx) = m :: rest →
  isMutateScheduled (run_scheduled fx) = false ∧
  scheduled (resources_ (run_scheduled fx)) = rest.
Proof. unfold run_scheduled. intros ->. by destruct m. Qed.

(** *** The update functions *)

(** C8. For every preset, an entry without [positionRect] schedules no
    mutation: the call returns the FxElement as it was (its queue of
    mutations and its [mutateScheduled] flag included), or throws at the
    development assertion before it writes anything. *)
Theorem update_absent_rect_schedules_nothing :
  ∀ (name : string) (p : Preset) (fx : FxElement),
    Presets !! name = Some p →
    update p {| positionRect := None |} fx =
      if to_boolean (adjustedViewportHeight_ fx) then Ok fx
      else Throw (Error Dev None).
Proof.
  intros name p fx Hp. each_preset Hp; unfold_update;
    by destruct (to_boolean _).
Qed.

Lemma update_absent_rect_schedules_nothing_witness :
  update fade_in entry_outside sample_fx = Ok sample_fx.
Proof.
  apply (update_absent_rect_schedules_nothing "fade-in" fade_in sample_fx).
  reflexivity.
Defined.

(** A falsy viewport height fails the development assertion, before any
    write. *)
Lemma update_unmeasured (name : string) (p : Preset) (entry : ScrollEntry) (fx : FxElement) :
  Presets !! name = Some p →
  to_boolean (adjustedViewportHeight_ fx) = false →
  update p entry fx = Throw (Error Dev None).
Proof. intros Hp Hh. by each_preset Hp; unfold_update; rewrite Hh. Qed.

(** Past the assertion nothing in [update] can throw. *)
Lemma update_measured (name : string) (p : Preset) (entry : ScrollEntry) (fx : FxElement) :
  Presets !! name = Some p →
  to_boolean (adjustedViewportHeight_ fx) = true →
  ∃ fx', update p entry fx = Ok fx'.
Proof.
  intros Hp Hh. destruct entry as [[r |]];
    each_preset Hp; unfold_update; rewrite Hh; cbn [positionRect];
    repeat next_test; eauto.
Qed.

(** C7, as the code has it. For every preset, [update] has exactly one way
    to fail: its development assertion on the cached viewport height.  When
    that height is truthy the call returns, whatever the entry and the state
    (outside the viewport and with a mutation pending it returns early);
    when it is falsy the call throws the assertion's error. *)
Theorem update_throws_only_at_dev_assert :
  ∀ (name : string) (p : Preset) (entry : ScrollEntry) (fx : FxElement),
    Presets !! name = Some p →
    (to_boolean (adjustedViewportHeight_ fx) = true →
       ∃ fx', update p entry fx = Ok fx') ∧
    (to_boolean (adjustedViewportHeight_ fx) = false →
       update p entry fx = Throw (Error Dev None)).
Proof.
  intros name p entry fx Hp. split.
  - by apply update_measured with name.
  - by apply update_unmeasured with name.
Qed.

Lemma update_throws_only_at_dev_assert_witness :
  (∃ fx', update fade_in_scroll (entry_at 50) sample_fx = Ok fx') ∧
  (to_boolean (adjustedViewportHeight_ sample_fx) = false →
     update fade_in_scroll (entry_at 50) sample_fx = Throw (Error Dev None)).
Proof.
  destruct (update_throws_only_at_dev_assert "fade-in-scroll" fade_in_scroll
              (entry_at 50) sample_fx) as [Hok Hthrow]; [reflexivity |].
  split; [apply Hok; reflexivity | exact Hthrow].
Defined.

(** C7, as the claim has it, fails: with a cached viewport height of 0 the
    assertion inside [update] fails and the call throws. *)
Lemma update_can_throw :
  Presets !! "parallax" = Some parallax ∧
  to_boolean (adjustedViewportHeight_ unmeasured_fx) = false ∧
  update parallax (entry_at 50) unmeasured_fx = Throw (Error Dev None).
Proof. repeat split; reflexivity. Qed.

(** With a mutation pending, an [update] that passes its assertion returns
    the FxElement with at most its offset changed. *)
Lemma update_pending (name : string) (p : Preset) (e : ScrollEntry) (fx : FxElement) :
  Presets !! name = Some p →
  isMutateScheduled fx = true →
  to_boolean (adjustedViewportHeight_ fx) = true →
  ∃ o, update p e fx = Ok (setOffset o fx) ∧
       (name ≠ "parallax" → o = getOffset fx).
Proof.
  intros Hp Hpending Hh. destruct e as [[r |]].
  - each_preset Hp; unfold_update; cbn [positionRect]; rewrite Hh;
      cbn [isMutateScheduled setOffset]; rewrite Hpending;
      repeat next_test;
      try (exists (getOffset fx); by rewrite setOffset_same).
    eexists; split; [reflexivity | done].
  - exists (getOffset fx). rewrite setOffset_same. split; [| done].
    by each_preset Hp; unfold_update; rewrite Hh.
Qed.

(** An [update] that raises the flag has queued its preset's callback, and
    changed nothing else but the offset. *)
Lemma update_schedules (name : string) (p : Preset) (e : ScrollEntry) (fx fx1 : FxElement) :
  Presets !! name = Some p →
  isMutateScheduled fx = false →
  update p e fx = Ok fx1 →
  isMutateScheduled fx1 = true →
  to_boolean (adjustedViewportHeight_ fx) = true ∧
  ∃ o m, mutator_of name = Some m ∧
         fx1 = mutateElement m (setIsMutateScheduled true (setOffset o fx)).
Proof.
  intros Hp Hidle H1 Hpending. revert H1.
  destruct e as [[r |]]; each_preset Hp; unfold_update; cbn [positionRect];
    destruct (to_boolean (adjustedViewportHeight_ fx)) eqn:Hh; try done;
    cbn [isMutateScheduled setOffset]; rewrite ?Hidle;
    repeat next_test; intros [= <-]; try congruence;
    (split; [done |]); try (by eexists _, _);
    exists (getOffset fx); rewrite setOffset_same; by eexists.
Qed.

(** C2. For every preset, when a first [update] has scheduled a mutation
    (the flag went from false to true, one callback was queued) a second
    [update] before the callback runs returns without calling
    [mutateElement] and leaves the flag set: one mutation is scheduled in
    total. *)
Theorem update_twice_schedules_once :
  ∀ (name : string) (p : Preset) (e1 e2 : ScrollEntry) (fx fx1 : FxElement),
    Presets !! name = Some p →
    isMutateScheduled fx = false →
    update p e1 fx = Ok fx1 →
    isMutateScheduled fx1 = true →
    (∃ m, mutator_of name = Some m ∧
          scheduled (resources_ fx1) = scheduled (resources_ fx) ++ [m]) ∧
    ∃ fx2, update p e2 fx1 = Ok fx2 ∧
           resources_ fx2 = resources_ fx1 ∧
           isMutateScheduled fx2 = true.
Proof.
  intros name p e1 e2 fx fx1 Hp Hidle H1 Hpending.
  destruct (update_schedules name p e1 fx fx1 Hp Hidle H1 Hpending)
    as (Hh & o & m & Hm & ->).
  split; [by exists m |].
  destruct (update_pending name p e2 _ Hp Hpending Hh) as (o' & -> & _).
  by eexists.
Qed.

Lemma update_twice_schedules_once_witness :
  (∃ m, mutator_of "parallax" = Some m ∧
        scheduled (resources_ pending_fx) = scheduled (resources_ sample_fx) ++ [m]) ∧
  ∃ fx2, update parallax (entry_at 20) pending_fx = Ok fx2 ∧
         resources_ fx2 = resources_ pending_fx ∧
         isMutateScheduled fx2 = true.
Proof.
  apply (update_twice_schedules_once "parallax" parallax (entry_at 50)
           (entry_at 20) sample_fx pending_fx); reflexivity.
Defined.

(** C3, as the code has it. With a mutation pending, [update] of fly-in-bottom,
    fade-in and fade-in-scroll changes nothing of the FxElement; [update] of
    parallax changes nothing but the offset, which it recomputes from every
    entry inside the viewport.  (With a falsy viewport height the call
    throws at its assertion, before any write.) *)
Theorem update_while_pending_keeps_all_but_parallax_offset :
  ∀ (name : string) (p : Preset) (e : ScrollEntry) (fx : FxElement),
    Presets !! name = Some p →
    isMutateScheduled fx = true →
    (name ≠ "parallax" →
       update p e fx =
         if to_boolean (adjustedViewportHeight_ fx) then Ok fx
         else Throw (Error Dev None)) ∧
    (∃ o, update p e fx =
            if to_boolean (adjustedViewportHeight_ fx) then Ok (setOffset o fx)
            else Throw (Error Dev None)) ∧
    (name = "parallax" →
       ∀ r, positionRect e = Some r →
            (top r > adjustedViewportHeight_ fx)%js = false →
            to_boolean (adjustedViewportHeight_ fx) = true →
            update p e fx =
              Ok (setOffset ((adjustedViewportHeight_ fx - top r) *
                             - (getFactor fx - 1))%js fx)).
Proof.
  intros name p e fx Hp Hpending.
  destruct (to_boolean (adjustedViewportHeight_ fx)) eqn:Hh.
  - destruct (update_pending name p e fx Hp Hpending Hh) as (o & Ho & Hsame).
    split; [| split].
    + intros Hne. rewrite Ho, (Hsame Hne). by rewrite setOffset_same.
    + by exists o.
    + intros -> r Hr Hin _. destruct e as [rect]; cbn in Hr; subst rect.
      apply Presets_lookup in Hp.
      destruct Hp as [[_ ->] | [[[=] _] | [[[=] _] | [[=] _]]]].
      unfold_update. rewrite Hh. cbn [positionRect].
      rewrite Hin. cbn [isMutateScheduled setOffset]. rewrite Hpending.
      by rewrite parseFloat_number_sub_1.
  - rewrite (update_unmeasured name p e fx Hp Hh).
    split; [done |]. split; [by exists 0%js | intros; congruence].
Qed.

Lemma update_while_pending_keeps_all_but_parallax_offset_witness :
  update fade_in_scroll (entry_at 20) pending_fx = Ok pending_fx.
Proof.
  destruct (update_while_pending_keeps_all_but_parallax_offset
              "fade-in-scroll" fade_in_scroll (entry_at 20) pending_fx)
    as [Hnoop _]; [reflexivity | reflexivity |].
  apply Hnoop. discriminate.
Defined.

(** C3, as the claim has it, fails for parallax: with a mutation pending
    (offset -50), an update at top 20 stores the offset -80. *)
Lemma parallax_update_while_pending_changes_offset :
  Presets !! "parallax" = Some parallax ∧
  isMutateScheduled pending_fx = true ∧
  update parallax (entry_at 20) pending_fx =
    Ok (setOffset (of_Z (-80)) pending_fx) ∧
  (getOffset (setOffset (of_Z (-80)) pending_fx) === getOffset pending_fx)%js
    = false.
Proof. repeat split; reflexivity. Qed.

(** [x <= y] excludes [x > y]. *)
Lemma le_not_gt (x y : number) : (x <= y)%js = true → (x > y)%js = false.
Proof. unfold le, gt. by destruct (compare x y) as [[]|]. Qed.

(** C1, as the code has it. Parallax, past the assertion on the viewport
    height (a truthy [adjustedViewportHeight_]): for an entry
    with [positionRect] present and [top <= adjustedViewportHeight],
    [update] stores the offset
    [(adjustedViewportHeight - top) * -(factor - 1)]; for an entry with
    [positionRect] absent or [top > adjustedViewportHeight] it returns with
    the FxElement untouched. *)
Theorem parallax_update_offset :
  ∀ (entry : ScrollEntry) (fx : FxElement),
    to_boolean (adjustedViewportHeight_ fx) = true →
    match positionRect entry with
    | Some rect =>
        ((top rect <= adjustedViewportHeight_ fx)%js = true →
           ∃ fx', update parallax entry fx = Ok fx' ∧
                  getOffset fx' =
                    ((adjustedViewportHeight_ fx - top rect) *
                     - (getFactor fx - 1))%js) ∧
        ((top rect > adjustedViewportHeight_ fx)%js = true →
           update parallax entry fx = Ok fx)
    | None => update parallax entry fx = Ok fx
    end.
Proof.
  intros [[rect |]] fx Hh; unfold_update; rewrite Hh; cbn [positionRect];
    [| done].
  split.
  - intros Hle. rewrite (le_not_gt _ _ Hle), parseFloat_number_sub_1.
    cbn [isMutateScheduled setOffset].
    destruct (isMutateScheduled fx); eexists; (split; [reflexivity | done]).
  - by intros ->.
Qed.

Lemma parallax_update_offset_witness :
  (∃ fx', update parallax (entry_at 50) sample_fx = Ok fx' ∧
          getOffset fx' = of_Z (-50)) ∧
  update parallax (entry_at 101) sample_fx = Ok sample_fx ∧
  update parallax entry_outside sample_fx = Ok sample_fx.
Proof.
  split; [| split].
  - apply (parallax_update_offset (entry_at 50) sample_fx); reflexivity.
  - apply (parallax_update_offset (entry_at 101) sample_fx); reflexivity.
  - apply (parallax_update_offset entry_outside sample_fx); reflexivity.
Defined.

(** C1, as the claim has it, fails: with a cached viewport height of 0 an
    entry at top -5 has [top <= adjustedViewportHeight], yet [update]
    throws at its assertion and stores no offset. *)
Lemma parallax_update_unmeasured_throws :
  positionRect (entry_at (-5)) = Some {| top := of_Z (-5) |} ∧
  (of_Z (-5) <= adjustedViewportHeight_ unmeasured_fx)%js = true ∧
  update parallax (entry_at (-5)) unmeasured_fx = Throw (Error Dev None).
Proof. repeat split; reflexivity. Qed.

(** *** The validation functions *)

Lemma hasAttribute_false (element : Element) (name : string) :
  hasAttribute element name = false ↔ getAttribute element name = None.
Proof.
  unfold hasAttribute, getAttribute. rewrite bool_decide_eq_false.
  rewrite eq_None_not_Some. done.
Qed.

(** Unfolds a [userAsserts] down to its tests. *)
Ltac unfold_userAsserts :=
  cbn [userAsserts parallax fly_in_bottom fade_in fade_in_scroll];
  unfold parallax.userAsserts, fly_in_bottom.userAsserts,
    fade_in.userAsserts, fade_in_scroll.userAsserts,
    assert, mbind, result_bind, mret, result_ret, to_boolean,
    bool_to_boolean, attribute_to_boolean, in_unit_interval.

(** C10. Fade-in-scroll: [userAsserts] returns without error when neither
    margin attribute is present, and fails when exactly one is: the absent
    one reads as [null], parses to NaN, and fails its range assertion. *)
Theorem fade_in_scroll_userAsserts_needs_both_margins :
  ∀ element : Element,
    in_unit_interval (parseFloat None) = false ∧
    (hasAttribute element "data-margin-start" = false →
     hasAttribute element "data-margin-end" = false →
     userAsserts fade_in_scroll element = Ok ()) ∧
    (hasAttribute element "data-margin-start" = false →
     hasAttribute element "data-margin-end" = true →
     userAsserts fade_in_scroll element = Throw (Error User (Some
       "data-margin-start must be a number and be between 0 and 1 for: %s"))) ∧
    (hasAttribute element "data-margin-start" = true →
     hasAttribute element "data-margin-end" = false →
     throws (userAsserts fade_in_scroll element) = true ∧
     (in_unit_interval (parseFloat (getAttribute element "data-margin-start")) = true →
      userAsserts fade_in_scroll element = Throw (Error User (Some
        "data-margin-end must be a number and be between 0 and 1 for: %s")))).
Proof.
  intros element. split; [reflexivity |]. split; [| split].
  - intros Hs He. unfold_userAsserts. by rewrite Hs, He.
  - intros Hs He. unfold_userAsserts. rewrite Hs, He. cbn [negb andb].
    apply hasAttribute_false in Hs. by rewrite Hs.
  - intros Hs He. unfold_userAsserts. rewrite Hs, He. cbn [negb andb].
    apply hasAttribute_false in He. rewrite He.
    destruct ((parseFloat (getAttribute _ "data-margin-start") >= 0)%js && _);
      by split.
Qed.

Lemma fade_in_scroll_userAsserts_needs_both_margins_witness :
  userAsserts fade_in_scroll (element_of []) = Ok () ∧
  userAsserts fade_in_scroll (element_of [("data-margin-end", "0.5")]) =
    Throw (Error User (Some
      "data-margin-start must be a number and be between 0 and 1 for: %s")) ∧
  userAsserts fade_in_scroll (element_of [("data-margin-start", "0.5")]) =
    Throw (Error User (Some
      "data-margin-end must be a number and be between 0 and 1 for: %s")).
Proof.
  split; [| split].
  - apply (fade_in_scroll_userAsserts_needs_both_margins (element_of []));
      reflexivity.
  - apply (fade_in_scroll_userAsserts_needs_both_margins
             (element_of [("data-margin-end", "0.5")])); reflexivity.
  - apply (fade_in_scroll_userAsserts_needs_both_margins
             (element_of [("data-margin-start", "0.5")])); reflexivity.
Defined.

(** C5, as the code has it. Fly-in-bottom and fade-in: when the margin
    attribute is present, [userAsserts] fails exactly when its parsed value
    is outside [0,1).  Fade-in-scroll: when at least one of the two margin
    attributes is present, [userAsserts] fails exactly when the parsed start
    margin or the parsed end margin is outside [0,1) (an absent one parses
    to NaN) or the end margin is not greater than the start margin; so with
    both in range it fails exactly when the end margin is not greater than
    the start margin. *)
Theorem userAsserts_margins :
  ∀ element : Element,
    let margin := parseFloat (getAttribute element "data-margin") in
    let marginStart := parseFloat (getAttribute element "data-margin-start") in
    let marginEnd := parseFloat (getAttribute element "data-margin-end") in
    (hasAttribute element "data-margin" = true →
     throws (userAsserts fly_in_bottom element) = negb (in_unit_interval margin)) ∧
    (hasAttribute element "data-margin-start" = true →
     throws (userAsserts fade_in element) = negb (in_unit_interval marginStart)) ∧
    (hasAttribute element "data-margin-start" = true ∨
     hasAttribute element "data-margin-end" = true →
     throws (userAsserts fade_in_scroll element) =
       negb (in_unit_interval marginStart) ||
       negb (in_unit_interval marginEnd) ||
       negb (marginEnd > marginStart)%js) ∧
    (in_unit_interval marginStart = true →
     in_unit_interval marginEnd = true →
     throws (userAsserts fade_in_scroll element) = negb (marginEnd > marginStart)%js).
Proof.
  intros element margin marginStart marginEnd. repeat split.
  - intros Hm. unfold_userAsserts. rewrite Hm. cbn [negb].
    fold margin. by destruct (_ && _).
  - intros Hs. unfold_userAsserts. rewrite Hs. cbn [negb].
    fold marginStart. by destruct (_ && _).
  - intros Hse. unfold_userAsserts.
    assert (negb (hasAttribute element "data-margin-start") &&
            negb (hasAttribute element "data-margin-end") = false) as ->
      by (destruct Hse as [-> | ->]; [done | apply andb_false_r]).
    fold marginStart marginEnd.
    destruct ((marginStart >= 0)%js && _); [| done].
    destruct ((marginEnd >= 0)%js && _); [| done].
    by destruct (marginEnd > marginStart)%js.
  - intros Hs He. unfold_userAsserts.
    destruct (negb (hasAttribute element "data-margin-start") &&
              negb (hasAttribute element "data-margin-end")) eqn:Habsent.
    + apply andb_true_iff in Habsent as [Hs' _].
      apply negb_true_iff, hasAttribute_false in Hs'.
      subst marginStart. by rewrite Hs' in Hs.
    + fold marginStart marginEnd. unfold in_unit_interval in Hs, He.
      rewrite Hs, He. by destruct (marginEnd > marginStart)%js.
Qed.

Lemma userAsserts_margins_witness :
  throws (userAsserts fly_in_bottom (element_of [("data-margin", "1.5")])) = true ∧
  throws (userAsserts fade_in (element_of [("data-margin-start", "0.5")])) = false ∧
  throws (userAsserts fade_in_scroll
            (element_of [("data-margin-start", "0.5"); ("data-margin-end", "0.2")]))
    = true.
Proof.
  split; [| split].
  - apply (userAsserts_margins (element_of [("data-margin", "1.5")])).
    reflexivity.
  - apply (userAsserts_margins (element_of [("data-margin-start", "0.5")])).
    reflexivity.
  - apply (userAsserts_margins
             (element_of [("data-margin-start", "0.5"); ("data-margin-end", "0.2")]));
      reflexivity.
Defined.

(** C5, as the claim has it, fails for fade-in-scroll: with only
    [data-margin-start] present, and its value 0.5 inside [0,1),
    [userAsserts] fails. *)
Lemma fade_in_scroll_userAsserts_rejects_margin_in_range :
  let element := element_of [("data-margin-start", "0.5")] in
  Presets !! "fade-in-scroll" = Some fade_in_scroll ∧
  hasAttribute element "data-margin-start" = true ∧
  hasAttribute element "data-margin-end" = false ∧
  in_unit_interval (parseFloat (getAttribute element "data-margin-start")) = true ∧
  throws (userAsserts fade_in_scroll element) = true.
Proof. repeat split; reflexivity. Qed.

(** C6, as the code has it. [userAsserts] fails on a missing numeric
    attribute in two cases: parallax without [data-parallax-factor], and
    fade-in-scroll with exactly one of [data-margin-start] and
    [data-margin-end].  When all the margin attributes a preset reads are
    missing it returns without error: fly-in-bottom without [data-margin],
    fade-in without [data-margin-start], fade-in-scroll without both. *)
Theorem userAsserts_missing_attribute :
  ∀ element : Element,
    (hasAttribute element "data-parallax-factor" = false →
     userAsserts parallax element = Throw (Error User (Some
       "data-parallax-factor=<number> attribute must be provided for: %s"))) ∧
    (hasAttribute element "data-margin" = false →
     userAsserts fly_in_bottom element = Ok ()) ∧
    (hasAttribute element "data-margin-start" = false →
     userAsserts fade_in element = Ok ()) ∧
    (hasAttribute element "data-margin-start" = false →
     hasAttribute element "data-margin-end" = false →
     userAsserts fade_in_scroll element = Ok ()) ∧
    (hasAttribute element "data-margin-start" = false →
     hasAttribute element "data-margin-end" = true →
     userAsserts fade_in_scroll element = Throw (Error User (Some
       "data-margin-start must be a number and be between 0 and 1 for: %s"))) ∧
    (hasAttribute element "data-margin-start" = true →
     hasAttribute element "data-margin-end" = false →
     throws (userAsserts fade_in_scroll element) = true).
Proof.
  intros element. repeat split.
  - intros Hf. apply hasAttribute_false in Hf. unfold_userAsserts.
    by rewrite Hf.
  - intros Hm. unfold_userAsserts. by rewrite Hm.
  - intros Hs. unfold_userAsserts. by rewrite Hs.
  - intros Hs He. unfold_userAsserts. by rewrite Hs, He.
  - intros Hs He. unfold_userAsserts. rewrite Hs, He. cbn [negb andb].
    apply hasAttribute_false in Hs. by rewrite Hs.
  - intros Hs He. unfold_userAsserts. rewrite Hs, He. cbn [negb andb].
    apply hasAttribute_false in He. rewrite He.
    by destruct ((parseFloat (getAttribute _ "data-margin-start") >= 0)%js && _).
Qed.

Lemma userAsserts_missing_attribute_witness :
  throws (userAsserts parallax (element_of [])) = true ∧
  userAsserts fly_in_bottom (element_of []) = Ok () ∧
  userAsserts fade_in (element_of []) = Ok () ∧
  userAsserts fade_in_scroll (element_of []) = Ok () ∧
  throws (userAsserts fade_in_scroll (element_of [("data-margin-end", "0.5")]))
    = true ∧
  throws (userAsserts fade_in_scroll (element_of [("data-margin-start", "0.5")]))
    = true.
Proof.
  destruct (userAsserts_missing_attribute (element_of []))
    as (Hp & Hfly & Hfade & Hscroll & _ & _).
  destruct (userAsserts_missing_attribute
              (element_of [("data-margin-end", "0.5")]))
    as (_ & _ & _ & _ & Hstart & _).
  destruct (userAsserts_missing_attribute
              (element_of [("data-margin-start", "0.5")]))
    as (_ & _ & _ & _ & _ & Hend).
  split; [| split; [| split; [| split; [| split]]]].
  - rewrite Hp; reflexivity.
  - apply Hfly; reflexivity.
  - apply Hfade; reflexivity.
  - apply Hscroll; reflexivity.
  - rewrite Hstart; reflexivity.
  - apply Hend; reflexivity.
Defined.

(** C6, as the claim has it, fails: fly-in-bottom without [data-margin] and
    fade-in without [data-margin-start] return without error. *)
Lemma userAsserts_accepts_missing_margin :
  Presets !! "fly-in-bottom" = Some fly_in_bottom ∧
  Presets !! "fade-in" = Some fade_in ∧
  hasAttribute (element_of []) "data-margin" = false ∧
  userAsserts fly_in_bottom (element_of []) = Ok () ∧
  hasAttribute (element_of []) "data-margin-start" = false ∧
  userAsserts fade_in (element_of []) = Ok ().
Proof. repeat split; reflexivity. Qed.

(** *** The support checks *)

(** C9, on the code. Parallax and fly-in-bottom return [true].  Fade-in and
    fade-in-scroll throw a user error when their experiment is off, and
    return [undefined], not a boolean, when it is on. *)
Theorem isFxTypeSupported_experimental_returns_undefined :
  ∀ win : Window,
    isFxTypeSupported parallax win = Ok (VBool true) ∧
    isFxTypeSupported fly_in_bottom win = Ok (VBool true) ∧
    isFxTypeSupported fade_in win =
      (if isExperimentOn win "amp-fx-fade-in" then Ok VUndefined
       else Throw (Error User (Some "amp-fx-fade-in experiment is not turned on."))) ∧
    isFxTypeSupported fade_in_scroll win =
      (if isExperimentOn win "amp-fx-fade-in-scroll" then Ok VUndefined
       else Throw (Error User (Some
              "amp-fx-fade-in-scroll experiment is not turned on."))) ∧
    isFxTypeSupported fade_in experiments_on = Ok VUndefined ∧
    isFxTypeSupported fade_in_scroll experiments_on = Ok VUndefined.
Proof.
  intros win. repeat split;
    cbn [isFxTypeSupported fade_in fade_in_scroll];
    unfold fade_in.isFxTypeSupported, fade_in_scroll.isFxTypeSupported,
      assert, to_boolean, bool_to_boolean, mbind, result_bind;
    try by destruct (isExperimentOn win _).
  all: by vm_compute.
Qed.

(** *** Arithmetic of finite Numbers *)

Module JsNumberFacts.

Lemma denotes_to_Q (x : number) : finite x = true → denotes x (to_Q x).
Proof. by split. Qed.

Lemma denotes_0 : denotes 0%js 0%Q.
Proof. by split. Qed.

Lemma denotes_1 : denotes 1%js 1%Q.
Proof. by split. Qed.

Lemma to_Q_neg (x : number) :
  finite x = true → denotes (- x)%js (- to_Q x)%Q.
Proof. by destruct x as [|[] []]. Qed.

Lemma to_Q_add (x y : number) :
  finite x = true → finite y = true → denotes (x + y)%js (to_Q x + to_Q y)%Q.
Proof.
  intros Hx Hy.
  destruct x as [|sx [|n d|]], y as [|sy [|n' d'|]]; try discriminate;
    destruct sx, sy; cbn -[Qplus Qeq Pos.mul Pos.sub];
    try (split; [reflexivity | unfold Qeq; cbn; lia]);
    destruct (Pos.compare_spec (n * d') (n' * d)) as [Heq | Hlt | Hgt];
    (split; [reflexivity |]); unfold Qeq; cbn -[Pos.mul Pos.sub];
    rewrite <- ?Pos2Z.opp_pos, ?Pos2Z.inj_sub by done; lia.
Qed.

Lemma to_Q_mul (x y : number) :
  finite x = true → finite y = true → denotes (x * y)%js (to_Q x * to_Q y)%Q.
Proof.
  intros Hx Hy.
  destruct x as [|sx [|n d|]], y as [|sy [|n' d'|]]; try discriminate;
    destruct sx, sy; (split; [reflexivity | unfold Qeq; cbn; lia]).
Qed.


Lemma denotes_neg (x : number) (p : Q) :
  denotes x p → denotes (- x)%js (- p)%Q.
Proof.
  intros [Hx Hp]. destruct (to_Q_neg x Hx) as [Hf Hq].
  split; [done |]. by rewrite Hq, Hp.
Qed.

Lemma denotes_add (x y : number) (p q : Q) :
  denotes x p → denotes y q → denotes (x + y)%js (p + q)%Q.
Proof.
  intros [Hx Hp] [Hy Hq]. destruct (to_Q_add x y Hx Hy) as [Hf Hs].
  split; [done |]. by rewrite Hs, Hp, Hq.
Qed.

Lemma denotes_sub (x y : number) (p q : Q) :
  denotes x p → denotes y q → denotes (x - y)%js (p - q)%Q.
Proof. intros Hx Hy. by apply denotes_add, denotes_neg. Qed.

Lemma denotes_mul (x y : number) (p q : Q) :
  denotes x p → denotes y q → denotes (x * y)%js (p * q)%Q.
Proof.
  intros [Hx Hp] [Hy Hq]. destruct (to_Q_mul x y Hx Hy) as [Hf Hs].
  split; [done |]. by rewrite Hs, Hp, Hq.
Qed.


(** On finite Numbers the order is the order of the rationals. *)
Lemma compare_to_Q (x y : number) :
  finite x = true → finite y = true →
  compare x y = Some (to_Q x ?= to_Q y)%Q.
Proof.
  intros Hx Hy.
  destruct x as [|sx [|n d|]], y as [|sy [|n' d'|]]; try discriminate;
    destruct sx, sy; try reflexivity;
    unfold Qcompare; cbn -[Pos.mul]; try reflexivity.
  by rewrite Pos.compare_antisym.
Qed.

Lemma compare_denotes (x y : number) (p q : Q) :
  denotes x p → denotes y q → compare x y = Some (p ?= q)%Q.
Proof.
  intros [Hx Hp] [Hy Hq]. rewrite (compare_to_Q x y Hx Hy).
  by rewrite Hp, Hq.
Qed.

Lemma eqb_denotes (x y : number) (p q : Q) :
  denotes x p → denotes y q → (x === y)%js = true ↔ (p == q)%Q.
Proof.
  intros Hx Hy. unfold eqb. rewrite (compare_denotes x y p q Hx Hy).
  rewrite Qeq_alt. by destruct (p ?= q)%Q.
Qed.

Lemma gt_denotes (x y : number) (p q : Q) :
  denotes x p → denotes y q → (x > y)%js = true ↔ (q < p)%Q.
Proof.
  intros Hx Hy. unfold gt. rewrite (compare_denotes x y p q Hx Hy).
  rewrite Qgt_alt. by destruct (p ?= q)%Q.
Qed.

End JsNumberFacts.

Import JsNumberFacts.

(** A Number that is not finite (NaN or an infinity) stays so through the
    operations of the offset formula, and equals no finite Number. *)
Lemma sub_not_finite_r (x y : number) :
  finite x = true → finite y = false → finite (x - y)%js = false.
Proof. by destruct x as [|[] [| |]], y as [|[] [| |]]. Qed.

Lemma sub_not_finite_l (x y : number) :
  finite x = false → finite y = true → finite (x - y)%js = false.
Proof. by destruct x as [|[] [| |]], y as [|[] [| |]]. Qed.

Lemma mul_1_not_finite (x : number) :
  finite x = false → finite (1 * x)%js = false.
Proof. by destruct x as [|[] [| |]]. Qed.

Lemma div_not_finite (x y : number) :
  finite x = false → finite y = true → finite (x / y)%js = false.
Proof. by destruct x as [|[] [| |]], y as [|[] [| |]]. Qed.

Lemma eqb_not_finite (x y : number) :
  finite x = false → finite y = true → (x === y)%js = false.
Proof. by destruct x as [|[] [| |]], y as [|[] [| |]]. Qed.


Lemma ge_denotes (x y : number) (p q : Q) :
  denotes x p → denotes y q → (x >= y)%js = true ↔ (q <= p)%Q.
Proof.
  intros Hx Hy. unfold ge. rewrite (compare_denotes x y p q Hx Hy).
  destruct (Qcompare_spec p q); split; intros; try done; lra.
Qed.

Lemma lt_denotes (x y : number) (p q : Q) :
  denotes x p → denotes y q → (x < y)%js = true ↔ (p < q)%Q.
Proof.
  intros Hx Hy. unfold lt. rewrite (compare_denotes x y p q Hx Hy).
  destruct (Qcompare_spec p q); split; intros; try done; lra.
Qed.






(** ** Further properties of the presets *)

(** Reduces the getters of an FxElement built by the setters. *)
Ltac simpl_fx :=
  cbn [setOffset setIsMutateScheduled mutateElement setStyles
       getElement adjustedViewportHeight_ getFactor getMargin getMarginStart
       getMarginEnd hasRepeat getDuration getEasing getOffset
       isMutateScheduled resources_ scheduled attributes style] in *.

(** *** Parallax validation *)

(** X1. Parallax [userAsserts] returns without error exactly when
    [data-parallax-factor] is present, not empty, and parses to a Number
    greater than 0.  An absent or empty attribute fails the first assertion;
    a value that parses to NaN, to 0 or below fails the second. *)
Theorem parallax_userAsserts_accepts_positive_factor :
  ∀ element : Element,
    let factorValue := getAttribute element "data-parallax-factor" in
    userAsserts parallax element =
      if negb (to_boolean factorValue) then
        Throw (Error User (Some
          "data-parallax-factor=<number> attribute must be provided for: %s"))
      else if (parseFloat factorValue > 0)%js then Ok ()
      else
        Throw (Error User (Some
          "data-parallax-factor must be a number and greater than 0 for: %s")).
Proof.
  intros element factorValue. unfold_userAsserts. fold factorValue.
  destruct factorValue as [[| c v] |]; cbn [negb]; try done;
    by destruct (_ > 0)%js.
Qed.

Example parallax_userAsserts_samples :
  userAsserts parallax (element_of [("data-parallax-factor", "1.5")]) = Ok () ∧
  throws (userAsserts parallax (element_of [("data-parallax-factor", "0")])) = true ∧
  throws (userAsserts parallax (element_of [("data-parallax-factor", "-2")])) = true ∧
  throws (userAsserts parallax (element_of [("data-parallax-factor", "fast")])) = true ∧
  throws (userAsserts parallax (element_of [("data-parallax-factor", "")])) = true.
Proof. repeat split; reflexivity. Qed.

(** *** What [update] leaves alone *)

(** X2. For every preset, an [update] that passes its assertion returns an
    FxElement whose element (attributes and style), cached height and parsed
    attributes are as before: it writes no style itself.  Fly-in-bottom and
    fade-in do not write the offset either. *)
Theorem update_keeps_configuration :
  ∀ (name : string) (p : Preset) (entry : ScrollEntry) (fx : FxElement),
    Presets !! name = Some p →
    to_boolean (adjustedViewportHeight_ fx) = true →
    ∃ fx', update p entry fx = Ok fx' ∧
           same_configuration fx fx' ∧
           (name = "fly-in-bottom" ∨ name = "fade-in" →
            getOffset fx' = getOffset fx).
Proof.
  intros name p [[r |]] fx Hp Hh; each_preset Hp; unfold_update; rewrite Hh;
    cbn [positionRect];
    repeat next_test; eexists; (split; [reflexivity |]);
    (split; [by repeat split | try done]);
    intros [[=] | [=]].
Qed.

Lemma update_keeps_configuration_witness :
  ∃ fx', update fly_in_bottom (entry_at 50) sample_fx = Ok fx' ∧
         same_configuration sample_fx fx' ∧
         getOffset fx' = getOffset sample_fx.
Proof.
  destruct (update_keeps_configuration "fly-in-bottom" fly_in_bottom
              (entry_at 50) sample_fx) as (fx' & Hu & Hc & Ho);
    [reflexivity | reflexivity |].
  exists fx'. split; [exact Hu |]. split; [exact Hc |]. apply Ho. by left.
Defined.

(** *** Repeating an update *)

(** X3. For every preset, [update] is idempotent on one entry: called again
    with the same entry on the FxElement it returned, it returns that
    FxElement unchanged. *)
Theorem update_same_entry_idempotent :
  ∀ (name : string) (p : Preset) (entry : ScrollEntry) (fx fx1 : FxElement),
    Presets !! name = Some p →
    update p entry fx = Ok fx1 →
    update p entry fx1 = Ok fx1.
Proof.
  intros name p [[r |]] fx fx1 Hp H1; each_preset Hp; revert H1;
    unfold_update; cbn [positionRect]; intros H1;
    destruct (to_boolean (adjustedViewportHeight_ fx)) eqn:Hh; try done;
    simpl_fx;
    repeat (match type of H1 with
            | context [if ?b then _ else _] => destruct b eqn:?
            end);
    injection H1 as <-; simpl_fx;
    repeat (match goal with H : _ = _ |- _ => rewrite H end);
    first [congruence | reflexivity].
Qed.

Lemma update_same_entry_idempotent_witness :
  update parallax (entry_at 50) pending_fx = Ok pending_fx.
Proof.
  apply (update_same_entry_idempotent "parallax" parallax (entry_at 50)
           sample_fx pending_fx); reflexivity.
Defined.

(** *** Updates and callbacks over time *)

(** The two ways an [update] that passes its assertion can return: with at
    most the offset written, or, from the idle state, with the flag set and
    the preset's callback queued as well. *)
Lemma update_cases (name : string) (p : Preset) (e : ScrollEntry) (fx : FxElement) :
  Presets !! name = Some p →
  to_boolean (adjustedViewportHeight_ fx) = true →
  ∃ o, update p e fx = Ok (setOffset o fx) ∨
       (isMutateScheduled fx = false ∧
        ∃ m, mutator_of name = Some m ∧
             update p e fx =
               Ok (mutateElement m (setIsMutateScheduled true (setOffset o fx)))).
Proof.
  intros Hp Hh. destruct (isMutateScheduled fx) eqn:Hflag.
  - destruct (update_pending name p e fx Hp Hflag Hh) as (o & Ho & _).
    exists o. by left.
  - destruct e as [[r |]]; each_preset Hp; unfold_update; rewrite Hh;
      cbn [positionRect]; simpl_fx; rewrite ?Hflag;
      repeat next_test;
      try (exists (getOffset fx); left; by rewrite setOffset_same);
      try (eexists; right; split; [done |]; eexists; split; reflexivity);
      exists (getOffset fx); right; rewrite setOffset_same;
      (split; [done |]); eexists; split; reflexivity.
Qed.

Lemma run_scheduled_keeps_height (fx : FxElement) :
  adjustedViewportHeight_ (run_scheduled fx) = adjustedViewportHeight_ fx.
Proof.
  unfold run_scheduled. destruct (scheduled (resources_ fx)) as [| m rest];
    [done | by destruct m].
Qed.

Lemma run_scheduled_at_most_one_pending (fx : FxElement) :
  at_most_one_pending fx = true → at_most_one_pending (run_scheduled fx) = true.
Proof.
  unfold at_most_one_pending, run_scheduled.
  destruct (isMutateScheduled fx) eqn:Hflag,
    (scheduled (resources_ fx)) as [| m [| m' rest]] eqn:Hq;
    try done; try (by rewrite Hflag, Hq); by destruct m.
Qed.

Lemma step_keeps_at_most_one_pending (name : string) (p : Preset) (ev : Event) (fx : FxElement) :
  Presets !! name = Some p →
  to_boolean (adjustedViewportHeight_ fx) = true →
  at_most_one_pending fx = true →
  ∃ fx', step p ev fx = Ok fx' ∧
         adjustedViewportHeight_ fx' = adjustedViewportHeight_ fx ∧
         at_most_one_pending fx' = true.
Proof.
  intros Hp Hh Hinv. destruct ev as [e |]; cbn [step].
  - destruct (update_cases name p e fx Hp Hh)
      as (o & [-> | (Hflag & m & _ & ->)]);
      eexists; (split; [reflexivity |]); (split; [done |]).
    + exact Hinv.
    + revert Hinv. unfold at_most_one_pending. simpl_fx. rewrite Hflag.
      by destruct (scheduled (resources_ fx)).
  - eexists. split; [reflexivity |].
    split; [apply run_scheduled_keeps_height |].
    by apply run_scheduled_at_most_one_pending.
Qed.

(** X4. For every preset, over any sequence of scroll events and frames that
    starts with the flag and the queue in agreement and a truthy viewport
    height, no call throws and the flag and the queue stay in agreement: at
    most one mutation is pending at any time, and the flag is set exactly
    while it is. *)
Theorem run_keeps_at_most_one_pending :
  ∀ (name : string) (p : Preset) (evs : list Event) (fx : FxElement),
    Presets !! name = Some p →
    to_boolean (adjustedViewportHeight_ fx) = true →
    at_most_one_pending fx = true →
    ∃ fx', run p evs fx = Ok fx' ∧ at_most_one_pending fx' = true.
Proof.
  intros name p evs. induction evs as [| ev evs IH]; intros fx Hp Hh Hinv.
  - by exists fx.
  - destruct (step_keeps_at_most_one_pending name p ev fx Hp Hh Hinv)
      as (fx1 & Hstep & Hh1 & Hinv1).
    cbn [run]. rewrite Hstep. cbn [mbind result_bind].
    apply IH; [done | by rewrite Hh1 | done].
Qed.

Lemma run_keeps_at_most_one_pending_witness :
  ∃ fx', run parallax
           [Scroll (entry_at 50); Scroll (entry_at 20); Frame; Scroll (entry_at 10)]
           sample_fx = Ok fx' ∧
         at_most_one_pending fx' = true.
Proof.
  apply (run_keeps_at_most_one_pending "parallax" parallax); reflexivity.
Defined.

(** X5. For every preset, when an [update] from the idle state (flag clear,
    queue empty) has scheduled a mutation, running the callback brings the
    FxElement back to the idle state with the offset the update stored, the
    attributes untouched, and the preset's style written over the style the
    element had: parallax [transform: translateY(offset.toFixed(0)px)];
    fly-in-bottom the transition duration and easing and
    [transform: translateY(-150px)]; fade-in the transition duration and
    easing and [opacity: 1]; fade-in-scroll [opacity: offset]. *)
Theorem update_then_callback :
  ∀ (name : string) (p : Preset) (e : ScrollEntry) (fx fx1 : FxElement),
    Presets !! name = Some p →
    isMutateScheduled fx = false →
    scheduled (resources_ fx) = [] →
    update p e fx = Ok fx1 →
    isMutateScheduled fx1 = true →
    let fx2 := run_scheduled fx1 in
    let style0 := style (getElement fx) in
    isMutateScheduled fx2 = false ∧
    scheduled (resources_ fx2) = [] ∧
    getOffset fx2 = getOffset fx1 ∧
    attributes (getElement fx2) = attributes (getElement fx) ∧
    (name = "parallax" →
       style (getElement fx2) =
         <["transform" := CssTranslateYFixed0 (getOffset fx1)]> style0) ∧
    (name = "fly-in-bottom" →
       style (getElement fx2) =
         <["transform" := CssString "translateY(-150px)"]>
           (<["transition-timing-function" := CssString (getEasing fx)]>
              (<["transition-duration" := CssString (getDuration fx)]> style0))) ∧
    (name = "fade-in" →
       style (getElement fx2) =
         <["opacity" := CssNumber 1]>
           (<["transition-timing-function" := CssString (getEasing fx)]>
              (<["transition-duration" := CssString (getDuration fx)]> style0))) ∧
    (name = "fade-in-scroll" →
       style (getElement fx2) =
         <["opacity" := CssNumber (getOffset fx1)]> style0).
Proof.
  intros name p e fx fx1 Hp Hidle Hq H1 Hpending.
  destruct (update_schedules name p e fx fx1 Hp Hidle H1 Hpending)
    as (_ & o & m & Hm & ->).
  unfold run_scheduled. simpl_fx. rewrite Hq. cbn [app].
  each_preset Hp; injection Hm as <-; by repeat split.
Qed.

Lemma update_then_callback_witness :
  let fx2 := run_scheduled pending_fx in
  isMutateScheduled fx2 = false ∧
  scheduled (resources_ fx2) = [] ∧
  style (getElement fx2) = {["transform" := CssTranslateYFixed0 (of_Z (-50))]}.
Proof.
  destruct (update_then_callback "parallax" parallax (entry_at 50) sample_fx
              pending_fx) as (Hflag & Hq & _ & _ & Hstyle & _);
    try reflexivity.
  split; [exact Hflag |]. split; [exact Hq |]. by rewrite Hstyle.
Defined.

(** X6. Parallax: a second in-viewport [update] that arrives while the
    mutation of a first one is pending does not schedule again, yet the
    callback, when it runs, writes the offset of the second entry: the
    pending mutation always applies the latest scroll position. *)
Theorem parallax_callback_applies_latest_offset :
  ∀ (e1 : ScrollEntry) (r2 : PositionRect) (fx fx1 : FxElement),
    isMutateScheduled fx = false →
    scheduled (resources_ fx) = [] →
    update parallax e1 fx = Ok fx1 →
    isMutateScheduled fx1 = true →
    (top r2 > adjustedViewportHeight_ fx)%js = false →
    ∃ fx2, update parallax {| positionRect := Some r2 |} fx1 = Ok fx2 ∧
           scheduled (resources_ fx2) = [ParallaxMutator] ∧
           style (getElement (run_scheduled fx2)) !! "transform" =
             Some (CssTranslateYFixed0
                     ((adjustedViewportHeight_ fx - top r2) *
                      - (getFactor fx - 1))%js).
Proof.
  intros e1 r2 fx fx1 Hidle Hq H1 Hpending Hin.
  destruct (update_schedules "parallax" parallax e1 fx fx1
              eq_refl Hidle H1 Hpending) as (Hh & o & m & [= <-] & ->).
  unfold_update. simpl_fx. rewrite Hh. cbn [positionRect].
  rewrite Hin. simpl_fx. eexists. split; [reflexivity |].
  unfold run_scheduled. simpl_fx. rewrite Hq. cbn [app].
  split; [reflexivity |].
  cbn [run_mutator]. simpl_fx. cbn [foldl fst snd].
  by rewrite lookup_insert_eq, parseFloat_number_sub_1.
Qed.

Lemma parallax_callback_applies_latest_offset_witness :
  ∃ fx2, update parallax (entry_at 20) pending_fx = Ok fx2 ∧
         scheduled (resources_ fx2) = [ParallaxMutator] ∧
         style (getElement (run_scheduled fx2)) !! "transform" =
           Some (CssTranslateYFixed0 (of_Z (-80))).
Proof.
  apply (parallax_callback_applies_latest_offset (entry_at 50)
           {| top := of_Z 20 |} sample_fx pending_fx); reflexivity.
Defined.

(** X7. Fade-in-scroll without repeat: once the offset has reached 1 and no
    mutation is pending, no sequence of scroll events and frames changes the
    FxElement any more; the effect is applied once and stays. *)
Theorem fade_in_scroll_without_repeat_stays :
  ∀ (evs : list Event) (fx : FxElement),
    to_boolean (adjustedViewportHeight_ fx) = true →
    hasRepeat fx = false →
    (getOffset fx >= 1)%js = true →
    isMutateScheduled fx = false →
    scheduled (resources_ fx) = [] →
    run fade_in_scroll evs fx = Ok fx.
Proof.
  intros evs fx Hh Hrepeat Hopaque Hidle Hq.
  induction evs as [| [[[r |]] |] evs IH]; [done | | |]; cbn [run step].
  - replace (update fade_in_scroll _ fx) with (Ok fx); [exact IH |].
    unfold_update. rewrite Hh. cbn [positionRect].
    rewrite Hidle, Hrepeat, Hopaque. by destruct (_ > _)%js.
  - replace (update fade_in_scroll _ fx) with (Ok fx); [exact IH |].
    unfold_update. by rewrite Hh.
  - unfold run_scheduled. rewrite Hq. exact IH.
Qed.

Lemma fade_in_scroll_without_repeat_stays_witness :
  run fade_in_scroll [Scroll (entry_at 70); Frame; Scroll (entry_at 10); Frame]
    opaque_fx = Ok opaque_fx.
Proof.
  apply (fade_in_scroll_without_repeat_stays
           [Scroll (entry_at 70); Frame; Scroll (entry_at 10); Frame] opaque_fx);
    reflexivity.
Defined.

(** *** The fade-in-scroll division *)

Lemma gt_false_denotes (x y : number) (p q : Q) :
  denotes x p → denotes y q → (x > y)%js = false ↔ (p <= q)%Q.
Proof.
  intros Hx Hy. rewrite <- not_true_iff_false, (gt_denotes x y p q Hx Hy).
  split; intros; lra.
Qed.

Lemma denotes_zero (x : number) (q : Q) :
  denotes x q → (q == 0)%Q → ∃ s, x = Num s MZero.
Proof.
  intros [Hx Hq] Hz. rewrite <- Hq in Hz.
  destruct x as [|s [| n d |]]; try done; [by exists s |].
  by destruct s.
Qed.

Lemma div_by_zero_not_finite (x : number) (s : bool) :
  finite (x / Num s MZero)%js = false.
Proof. by destruct x as [|[] [| |]], s. Qed.

(** X10. Fade-in-scroll guards no division: when the two margins of the
    FxElement are equal, for a finite viewport height the denominator is
    zero and the offset is NaN or an infinity, whatever [top] is. *)
Theorem fade_in_scroll_equal_margins_offset_not_finite :
  ∀ (fx : FxElement) (top : number),
    finite (adjustedViewportHeight_ fx) = true →
    finite (getMarginStart fx) = true →
    (getMarginEnd fx === getMarginStart fx)%js = true →
    finite (fade_in_scroll.offset_at fx top) = false.
Proof.
  intros fx top Hfin Hfs Heq.
  assert (finite (getMarginEnd fx) = true) as Hfe.
  { destruct (finite (getMarginEnd fx)) eqn:Hfe; [done |].
    by rewrite (eqb_not_finite _ _ Hfe Hfs) in Heq. }
  pose proof (denotes_to_Q _ Hfin) as Hh.
  pose proof (denotes_to_Q _ Hfs) as Hms.
  pose proof (denotes_to_Q _ Hfe) as Hme.
  apply (eqb_denotes _ _ _ _ Hme Hms) in Heq.
  destruct (denotes_zero _ _
              (denotes_mul _ _ _ _ (denotes_sub _ _ _ _ Hme Hms) Hh))
    as [s Hzero]; [nra |].
  unfold fade_in_scroll.offset_at. rewrite Hzero.
  apply div_by_zero_not_finite.
Qed.

Lemma fade_in_scroll_equal_margins_offset_not_finite_witness :
  finite (fade_in_scroll.offset_at
            (with_margins (Num false (MPos 1 4)) (Num false (MPos 2 8)) sample_fx)
            (of_Z 30)) = false.
Proof.
  apply (fade_in_scroll_equal_margins_offset_not_finite
           (with_margins (Num false (MPos 1 4)) (Num false (MPos 2 8)) sample_fx)
           (of_Z 30)); reflexivity.
Defined.

(** *** The direction of the parallax offset *)

Lemma le_denotes (x y : number) (p q : Q) :
  denotes x p → denotes y q → (x <= y)%js = true ↔ (p <= q)%Q.
Proof.
  intros Hx Hy. unfold le. rewrite (compare_denotes x y p q Hx Hy).
  destruct (Qcompare_spec p q); split; intros; try done; lra.
Qed.

(** Inside the viewport guard parallax stores its offset, pending or not. *)
Lemma parallax_update_stores (r : PositionRect) (fx : FxElement) :
  to_boolean (adjustedViewportHeight_ fx) = true →
  (top r > adjustedViewportHeight_ fx)%js = false →
  ∃ fx', update parallax {| positionRect := Some r |} fx = Ok fx' ∧
         getOffset fx' =
           ((adjustedViewportHeight_ fx - top r) * - (getFactor fx - 1))%js.
Proof.
  intros Hh Hin. unfold_update. rewrite Hh. cbn [positionRect]. rewrite Hin.
  rewrite parseFloat_number_sub_1. simpl_fx.
  destruct (isMutateScheduled fx); eexists; (split; [reflexivity | done]).
Qed.

(** X11. Parallax, for finite height, factor and [top] inside the viewport
    guard: with a factor above 1 the stored offset is zero or negative (the
    element moves up), with a factor below 1 it is zero or positive. *)
Theorem parallax_offset_direction :
  ∀ (r : PositionRect) (fx : FxElement),
    to_boolean (adjustedViewportHeight_ fx) = true →
    finite (adjustedViewportHeight_ fx) = true →
    finite (getFactor fx) = true →
    finite (top r) = true →
    (top r > adjustedViewportHeight_ fx)%js = false →
    ∃ fx', update parallax {| positionRect := Some r |} fx = Ok fx' ∧
           ((getFactor fx > 1)%js = true → (getOffset fx' <= 0)%js = true) ∧
           ((getFactor fx < 1)%js = true → (getOffset fx' >= 0)%js = true).
Proof.
  intros r fx Hh Hfin Hff Hft Hin.
  destruct (parallax_update_stores r fx Hh Hin) as (fx' & Hu & Ho).
  exists fx'. split; [exact Hu |]. rewrite Ho. clear Hu Ho fx'.
  pose proof (denotes_to_Q _ Hfin) as Hdh.
  pose proof (denotes_to_Q _ Hff) as Hdf.
  pose proof (denotes_to_Q _ Hft) as Hdt.
  set (h := to_Q (adjustedViewportHeight_ fx)) in *.
  set (f := to_Q (getFactor fx)) in *. set (t := to_Q (top r)) in *.
  apply (gt_false_denotes _ _ _ _ Hdt Hdh) in Hin.
  pose proof (denotes_mul _ _ _ _ (denotes_sub _ _ _ _ Hdh Hdt)
                (denotes_neg _ _ (denotes_sub _ _ _ _ Hdf denotes_1))) as Ho.
  rewrite (gt_denotes _ _ _ _ Hdf denotes_1), (le_denotes _ _ _ _ Ho denotes_0).
  rewrite (lt_denotes _ _ _ _ Hdf denotes_1), (ge_denotes _ _ _ _ Ho denotes_0).
  split; intros Hf; nra.
Qed.

Lemma parallax_offset_direction_witness :
  ∃ fx', update parallax (entry_at 50) sample_fx = Ok fx' ∧
         (getOffset fx' <= 0)%js = true.
Proof.
  destruct (parallax_offset_direction {| top := of_Z 50 |} sample_fx)
    as (fx' & Hu & Hup & _); try reflexivity.
  exists fx'. split; [exact Hu | apply Hup; reflexivity].
Defined.

(** *** The edges of the viewport *)

Lemma gt_above (x y z : number) (q q' : Q) :
  (x > y)%js = true → denotes y q → denotes z q' → (q' <= q)%Q →
  (x > z)%js = true.
Proof.
  intros Hgt Hy Hz Hle. destruct (finite x) eqn:Hfx.
  - pose proof (denotes_to_Q _ Hfx) as Hx.
    apply (gt_denotes _ _ _ _ Hx Hy) in Hgt.
    apply (gt_denotes _ _ _ _ Hx Hz). lra.
  - destruct Hy as [Hfy _], Hz as [Hfz _].
    by destruct x as [|[] [| |]], y as [|[] [| |]], z as [|[] [| |]].
Qed.

Lemma le_below (x y z : number) (q q' : Q) :
  (x <= y)%js = true → denotes y q → denotes z q' → (q <= q')%Q →
  (x > z)%js = false.
Proof.
  intros Hle Hy Hz Hqq. destruct (finite x) eqn:Hfx.
  - pose proof (denotes_to_Q _ Hfx) as Hx.
    apply (le_denotes _ _ _ _ Hx Hy) in Hle.
    apply (gt_false_denotes _ _ _ _ Hx Hz). lra.
  - destruct Hy as [Hfy _], Hz as [Hfz _].
    by destruct x as [|[] [| |]], y as [|[] [| |]], z as [|[] [| |]].
Qed.

(** A validated margin puts the trigger line inside the viewport. *)
Lemma trigger_line (margin height : number) :
  in_unit_interval margin = true →
  finite height = true →
  (height > 0)%js = true →
  ∃ q, denotes ((1 - margin) * height)%js q ∧
       (0 < q)%Q ∧ (q <= to_Q height)%Q.
Proof.
  intros Hm Hfin Hpos. unfold in_unit_interval in Hm.
  apply andb_true_iff in Hm as [Hm0 Hm1].
  assert (finite margin = true) as Hfm by (by destruct margin as [|[] [| |]]).
  pose proof (denotes_to_Q _ Hfin) as Hh.
  pose proof (denotes_to_Q _ Hfm) as Hdm.
  apply (gt_denotes _ _ _ _ Hh denotes_0) in Hpos.
  apply (ge_denotes _ _ _ _ Hdm denotes_0) in Hm0.
  apply (lt_denotes _ _ _ _ Hdm denotes_1) in Hm1.
  exists ((1 - to_Q margin) * to_Q height)%Q.
  split; [exact (denotes_mul _ _ _ _ (denotes_sub _ _ _ _ denotes_1 Hdm) Hh) |].
  split; nra.
Qed.

Lemma gt_0_truthy (x : number) : (x > 0)%js = true → truthy x = true.
Proof. by destruct x as [|[] [| |]]. Qed.

(** X12. For every preset, with validated margins (in [0,1)) and a finite
    positive viewport height: an element whose top is below the bottom of
    the viewport ([top > adjustedViewportHeight]) never triggers, [update]
    returns the FxElement untouched; and for parallax, fly-in-bottom and
    fade-in an element whose top is at or above the top of the viewport
    ([top <= 0]) always triggers from the idle state, [update] sets the flag
    and queues the preset's callback. *)
Theorem update_at_viewport_edges :
  ∀ (name : string) (p : Preset) (r : PositionRect) (fx : FxElement),
    Presets !! name = Some p →
    finite (adjustedViewportHeight_ fx) = true →
    (adjustedViewportHeight_ fx > 0)%js = true →
    in_unit_interval (getMargin fx) = true →
    in_unit_interval (getMarginStart fx) = true →
    ((top r > adjustedViewportHeight_ fx)%js = true →
     update p {| positionRect := Some r |} fx = Ok fx) ∧
    ((top r <= 0)%js = true →
     isMutateScheduled fx = false →
     name ≠ "fade-in-scroll" →
     ∃ fx' m, update p {| positionRect := Some r |} fx = Ok fx' ∧
              mutator_of name = Some m ∧
              isMutateScheduled fx' = true ∧
              scheduled (resources_ fx') = scheduled (resources_ fx) ++ [m]).
Proof.
  intros name p r fx Hp Hfin Hpos Hm Hms.
  assert (to_boolean (adjustedViewportHeight_ fx) = true) as Hh
    by exact (gt_0_truthy _ Hpos).
  pose proof (denotes_to_Q _ Hfin) as Hdh.
  destruct (trigger_line _ _ Hm Hfin Hpos) as (qm & Hlm & Hm0 & Hm1).
  destruct (trigger_line _ _ Hms Hfin Hpos) as (qs & Hls & Hs0 & Hs1).
  assert (0 < to_Q (adjustedViewportHeight_ fx))%Q as Hhpos
    by (by apply (gt_denotes _ _ _ _ Hdh denotes_0)).
  split.
  - intros Hbelow.
    pose proof (gt_above _ _ _ _ _ Hbelow Hdh Hlm Hm1) as Hgm.
    pose proof (gt_above _ _ _ _ _ Hbelow Hdh Hls Hs1) as Hgs.
    by each_preset Hp; unfold_update; rewrite Hh; cbn [positionRect];
      rewrite ?Hbelow, ?Hgm, ?Hgs.
  - intros Habove Hidle Hne.
    pose proof (le_below _ _ _ _ _ Habove denotes_0 Hdh (Qlt_le_weak _ _ Hhpos))
      as Hnh.
    pose proof (le_below _ _ _ _ _ Habove denotes_0 Hlm (Qlt_le_weak _ _ Hm0))
      as Hnm.
    pose proof (le_below _ _ _ _ _ Habove denotes_0 Hls (Qlt_le_weak _ _ Hs0))
      as Hns.
    each_preset Hp; try done; unfold_update; rewrite Hh; cbn [positionRect];
      rewrite ?Hnh, ?Hnm, ?Hns; simpl_fx; rewrite Hidle;
      eexists _, _; (split; [reflexivity |]); by repeat split.
Qed.

Lemma update_at_viewport_edges_witness :
  update fade_in_scroll (entry_at 101) sample_fx = Ok sample_fx ∧
  ∃ fx' m, update fly_in_bottom (entry_at (-5)) sample_fx = Ok fx' ∧
           mutator_of "fly-in-bottom" = Some m ∧
           isMutateScheduled fx' = true ∧
           scheduled (resources_ fx') = scheduled (resources_ sample_fx) ++ [m].
Proof.
  split.
  - apply (update_at_viewport_edges "fade-in-scroll" fade_in_scroll
             {| top := of_Z 101 |} sample_fx); reflexivity.
  - apply (update_at_viewport_edges "fly-in-bottom" fly_in_bottom
             {| top := of_Z (-5) |} sample_fx); try reflexivity.
    discriminate.
Defined.
